(** * gen_theme.py: the on-screen-keyboard theme generator

    A shallow embedding of [context-osk/gen_theme.py].  The script holds a
    fixed table of key rows, walks it once and prints an INI-like theme:
    a [General] header and one section per real key.

    Numbers.  Pixel constants and keycodes are Python ints, modelled as [Z].
    Width units are Python ints or floats; every value of the table is a
    multiple of 1/4 below 20, so IEEE double sums and products by 34 are
    exact and the rational model [Q] computes the same numbers.  [int(...)]
    truncates toward zero ([Py.int]).

    Output.  Each [print(s)] appends [s] to the trace of printed strings;
    the text on standard output is every printed string followed by a
    newline ([stdout_text]). *)

From Stdlib Require Import ZArith QArith Qround List String Ascii Bool Lia.
From Stdlib Require Import Numbers.DecimalString.
From Stdlib Require DecimalZ DecimalPos.
From Stdlib Require Import Sorting.Sorted Lqa.
Import ListNotations.

Local Open Scope string_scope.
Local Open Scope Z_scope.

(** ** Python values used by the table *)

Module Py.

(** The objects that occur in the optional trailing tuple fields. *)
Inductive value : Type :=
| None
| Bool (b : bool)
| Int (z : Z)
| Float (q : Q)
| Str (s : string).

(** Truth value testing, as [if item[4]] does it. *)
Definition truthy (v : value) : bool :=
  match v with
  | None => false
  | Bool b => b
  | Int z => negb (z =? 0)
  | Float q => negb (Qnum q =? 0)
  | Str s => negb (String.eqb s "")
  end.

(** [int(q)] on a number: truncation toward zero. *)
Definition int (q : Q) : Z := Z.quot (Qnum q) (Z.pos (Qden q)).

(** [f"{z}"] / [str(z)] on an int: decimal digits, a leading minus sign. *)
Definition str (z : Z) : string := NilZero.string_of_int (Z.to_int z).

(** [s.replace(old, new)] for a one-character [old]: every occurrence,
    left to right. *)
Fixpoint replace (old : ascii) (new s : string) : string :=
  match s with
  | EmptyString => EmptyString
  | String c rest =>
      if Ascii.eqb c old then new ++ replace old new rest
      else String c (replace old new rest)
  end.

(** [enumerate(l)], counting from [start]. *)
Fixpoint enumerate_from {A : Type} (start : Z) (l : list A) : list (Z * A) :=
  match l with
  | [] => []
  | x :: rest => (start, x) :: enumerate_from (start + 1) rest
  end.

Definition enumerate {A : Type} (l : list A) : list (Z * A) :=
  enumerate_from 0 l.

End Py.

(** ** Layout configuration *)

Definition UNIT : Z := 34.
Definition KEY_W_BASE : Z := 32.
Definition GAP : Z := 2.
Definition START_X : Z := 2.
Definition START_Y : Z := 2.
Definition HEIGHT : Z := 32.

(** ** Keycodes *)

Definition K_ESC := 9.
Definition K_F1 := 67.
Definition K_F2 := 68.
Definition K_F3 := 69.
Definition K_F4 := 70.
Definition K_F5 := 71.
Definition K_F6 := 72.
Definition K_F7 := 73.
Definition K_F8 := 74.
Definition K_F9 := 75.
Definition K_F10 := 76.
Definition K_F11 := 95.
Definition K_F12 := 96.
Definition K_PRTSC := 107.
Definition K_SCRLK := 78.
Definition K_PAUSE := 127.

Definition K_GRAVE := 49.
Definition K_1 := 10.
Definition K_2 := 11.
Definition K_3 := 12.
Definition K_4 := 13.
Definition K_5 := 14.
Definition K_6 := 15.
Definition K_7 := 16.
Definition K_8 := 17.
Definition K_9 := 18.
Definition K_0 := 19.
Definition K_MINUS := 20.
Definition K_EQUAL := 21.
Definition K_BKSP := 22.
Definition K_INS := 118.
Definition K_HOME := 110.
Definition K_PGUP := 112.

Definition K_TAB := 23.
Definition K_Q := 24.
Definition K_W := 25.
Definition K_E := 26.
Definition K_R := 27.
Definition K_T := 28.
Definition K_Y := 29.
Definition K_U := 30.
Definition K_I := 31.
Definition K_O := 32.
Definition K_P := 33.
Definition K_LBRACKET := 34.
Definition K_RBRACKET := 35.
Definition K_BACKSLASH := 51.
Definition K_DEL := 119.
Definition K_END := 115.
Definition K_PGDN := 117.

Definition K_CAPS := 66.
Definition K_A := 38.
Definition K_S := 39.
Definition K_D := 40.
Definition K_F := 41.
Definition K_G := 42.
Definition K_H := 43.
Definition K_J := 44.
Definition K_K := 45.
Definition K_L := 46.
Definition K_SEMICOLON := 47.
Definition K_QUOTE := 48.
Definition K_ENTER := 36.

Definition K_LSHIFT := 50.
Definition K_Z := 52.
Definition K_X := 53.
Definition K_C := 54.
Definition K_V := 55.
Definition K_B := 56.
Definition K_N := 57.
Definition K_M := 58.
Definition K_COMMA := 59.
Definition K_PERIOD := 60.
Definition K_SLASH := 61.
Definition K_RSHIFT := 62.
Definition K_UP := 111.

Definition K_LCTRL := 37.
Definition K_SUPER := 133.
Definition K_LALT := 64.
Definition K_SPACE := 65.
Definition K_RALT := 108.
Definition K_MENU := 135.
Definition K_RCTRL := 105.
Definition K_LEFT := 113.
Definition K_DOWN := 116.
Definition K_RIGHT := 114.

(** ** Key descriptors

    A descriptor is the tuple [(Label, Keycode, WidthUnits, ForceColOffset?,
    IsToggle?)]: three fields that every tuple has, and the optional ones
    kept as the list of trailing fields, so that [item[3]] is [extra[0]],
    [item[4]] is [extra[1]] and [len(item)] is [3 + len(extra)]. *)

Record descriptor : Type := mkDescriptor {
  label : string;
  keycode : Z;
  width_units : Q;
  extra : list Py.value
}.

Definition len (item : descriptor) : Z := 3 + Z.of_nat (List.length (extra item)).

(** [item[i]] for [i >= 3]. *)
Definition field (item : descriptor) (i : nat) : option Py.value :=
  nth_error (extra item) (i - 3).

(** A three-field tuple. *)
Definition key (l : string) (k : Z) (w : Q) : descriptor :=
  mkDescriptor l k w [].

(** A five-field tuple [(l, k, w, None, True)]. *)
Definition toggle_key (l : string) (k : Z) (w : Q) : descriptor :=
  mkDescriptor l k w [Py.None; Py.Bool true].

Definition tkl_layout : list (list descriptor) :=
  [ (* Row 0 *)
    [ key "Esc" K_ESC 1; key "GAP" 0 1;
      key "F1" K_F1 1; key "F2" K_F2 1; key "F3" K_F3 1; key "F4" K_F4 1;
      key "GAP" 0 (1#2);
      key "F5" K_F5 1; key "F6" K_F6 1; key "F7" K_F7 1; key "F8" K_F8 1;
      key "GAP" 0 (1#2);
      key "F9" K_F9 1; key "F10" K_F10 1; key "F11" K_F11 1;
      key "F12" K_F12 1; key "GAP" 0 (1#2);
      key "PrtSc" K_PRTSC 1; key "ScrLk" K_SCRLK 1; key "Pause" K_PAUSE 1 ];
    (* Row 1 *)
    [ key "`" K_GRAVE 1; key "1" K_1 1; key "2" K_2 1; key "3" K_3 1;
      key "4" K_4 1; key "5" K_5 1;
      key "6" K_6 1; key "7" K_7 1; key "8" K_8 1; key "9" K_9 1;
      key "0" K_0 1;
      key "-" K_MINUS 1; key "=" K_EQUAL 1; key "Bksp" K_BKSP 2;
      key "GAP" 0 (1#2);
      key "Ins" K_INS 1; key "Home" K_HOME 1; key "PgUp" K_PGUP 1 ];
    (* Row 2 *)
    [ key "Tab" K_TAB (3#2); key "Q" K_Q 1; key "W" K_W 1; key "E" K_E 1;
      key "R" K_R 1; key "T" K_T 1;
      key "Y" K_Y 1; key "U" K_U 1; key "I" K_I 1; key "O" K_O 1;
      key "P" K_P 1;
      key "[" K_LBRACKET 1; key "]" K_RBRACKET 1;
      key "\" K_BACKSLASH (3#2); key "GAP" 0 (1#2);
      key "Del" K_DEL 1; key "End" K_END 1; key "PgDn" K_PGDN 1 ];
    (* Row 3 *)
    [ key "Caps" K_CAPS (7#4); key "A" K_A 1; key "S" K_S 1; key "D" K_D 1;
      key "F" K_F 1; key "G" K_G 1;
      key "H" K_H 1; key "J" K_J 1; key "K" K_K 1; key "L" K_L 1;
      key ";" K_SEMICOLON 1; key "'" K_QUOTE 1;
      key "Enter" K_ENTER (9#4) ];
    (* Row 4 *)
    [ toggle_key "Shift" K_LSHIFT (9#4); key "Z" K_Z 1; key "X" K_X 1;
      key "C" K_C 1; key "V" K_V 1;
      key "B" K_B 1; key "N" K_N 1; key "M" K_M 1; key "," K_COMMA 1;
      key "." K_PERIOD 1; key "/" K_SLASH 1;
      toggle_key "Shift" K_RSHIFT (11#4); key "GAP" 0 (3#2);
      key "Up" K_UP 1 ];
    (* Row 5 *)
    [ toggle_key "Ctrl" K_LCTRL (3#2); toggle_key "Win" K_SUPER (5#4);
      toggle_key "Alt" K_LALT (5#4);
      key "Space" K_SPACE 7;
      toggle_key "Alt" K_RALT (5#4); toggle_key "Menu" K_MENU (5#4);
      toggle_key "Ctrl" K_RCTRL (3#2); key "GAP" 0 (1#2);
      key "Left" K_LEFT 1; key "Down" K_DOWN 1; key "Right" K_RIGHT 1 ]
  ].

(** ** The emission pass *)

Definition newline : string := String (ascii_of_nat 10) EmptyString.

(** [print(s)]: the trace of printed strings grows by [s]. *)
Definition print (s : string) (out : list string) : list string := out ++ [s].

(** The text on standard output for a trace: [print] ends each string with
    a newline. *)
Definition stdout_text (out : list string) : string :=
  String.concat "" (map (fun s => s ++ newline) out).

Definition is_gap (item : descriptor) : bool := String.eqb (label item) "GAP".

(** [is_toggle = False; if len(item) > 4 and item[4]: is_toggle = True] *)
Definition is_toggle (item : descriptor) : bool :=
  if (4 <? len item) &&
     match field item 4 with
     | Some v => Py.truthy v
     | Datatypes.None => false
     end
  then true else false.

(** [x_pos = int(START_X + current_x_units * UNIT)] *)
Definition x_pos (current_x_units : Q) : Z :=
  Py.int (inject_Z START_X + current_x_units * inject_Z UNIT)%Q.

(** [y_pos = START_Y + r_idx * UNIT] *)
Definition y_pos (r_idx : Z) : Z := START_Y + r_idx * UNIT.

(** [w_pos = int(width_units * UNIT - GAP)] *)
Definition w_pos (width_units : Q) : Z :=
  Py.int (width_units * inject_Z UNIT - inject_Z GAP)%Q.

(** The chain of [replace] calls that makes a label identifier-safe. *)
Definition safe_label (label : string) : string :=
  Py.replace "-" "Dash"
  (Py.replace "/" "Slash"
  (Py.replace "." "Dot"
  (Py.replace "," "Comma"
  (Py.replace "'" "Quote"
  (Py.replace ";" "Colon"
  (Py.replace "=" "Equal"
  (Py.replace "]" "RBr"
  (Py.replace "[" "LBr"
  (Py.replace "\" "Backslash"
  (Py.replace "`" "Backtick" label)))))))))).

(** [section_name = f"Key_{safe_label}_{keycode}"] *)
Definition section_name (label : string) (keycode : Z) : string :=
  "Key_" ++ safe_label label ++ "_" ++ Py.str keycode.

(** The body of the inner loop.  The state is the running offset in units
    and the trace printed so far; [y] is the row's [y_pos]. *)
Definition item_step (y : Z) (st : Q * list string) (item : descriptor)
  : Q * list string :=
  let '(current_x_units, out) := st in
  let label := label item in
  let width_units := width_units item in
  if String.eqb label "GAP" then
    ((current_x_units + width_units)%Q, out)
  else
    let keycode := keycode item in
    let is_toggle := is_toggle item in
    let x_pos := x_pos current_x_units in
    let w_pos := w_pos width_units in
    let section_name := section_name label keycode in
    let out := print (newline ++ "[" ++ section_name ++ "]") out in
    let out := print ("x=" ++ Py.str x_pos) out in
    let out := print ("y=" ++ Py.str y) out in
    let out := print ("width=" ++ Py.str w_pos) out in
    let out := print ("height=" ++ Py.str HEIGHT) out in
    let out := print ("keycode=" ++ Py.str keycode) out in
    let out := if is_toggle then print "toggle=true" out else out in
    let out := print ("label=" ++ label) out in
    ((current_x_units + width_units)%Q, out).

(** The body of the outer loop: one row at index [r_idx]. *)
Definition row_step (out : list string) (ir : Z * list descriptor)
  : list string :=
  let '(r_idx, row) := ir in
  let current_x_units := 0%Q in
  let y_pos := y_pos r_idx in
  snd (fold_left (item_step y_pos) row (current_x_units, out)).

(** The four header prints. *)
Definition print_header (out : list string) : list string :=
  let out := print "[General]" out in
  let out := print ("width=" ++ Py.str (Py.int (inject_Z (19 * UNIT)))) out in
  let out := print ("height=" ++ Py.str (Py.int (inject_Z (6 * UNIT + 4)))) out in
  print "background_color=#0A0A0A" out.

(** The whole script on a layout table: header, then the two loops. *)
Definition emit (layout : list (list descriptor)) : list string :=
  fold_left row_step (Py.enumerate layout) (print_header []).

(** What the script prints. *)
Definition main : list string := emit tkl_layout.

Definition output : string := stdout_text main.

(** ** The emitted sections, as records

    The structured reading of the output that the format description gives:
    one section per real key, row by row and left to right, each with its
    fields in the order x, y, width, height, keycode, toggle, label.  The
    lemmas below show that the prints of [emit] are exactly the prints of
    these records. *)

Record section : Type := mkSection {
  sec_name : string;
  sec_x : Z;
  sec_y : Z;
  sec_width : Z;
  sec_height : Z;
  sec_keycode : Z;
  sec_toggle : bool;
  sec_label : string
}.

(** The section of a real key met at offset [current_x_units] in the row
    whose vertical position is [y]. *)
Definition section_of (y : Z) (current_x_units : Q) (item : descriptor)
  : section :=
  {| sec_name := section_name (label item) (keycode item);
     sec_x := x_pos current_x_units;
     sec_y := y;
     sec_width := w_pos (width_units item);
     sec_height := HEIGHT;
     sec_keycode := keycode item;
     sec_toggle := is_toggle item;
     sec_label := label item |}.

(** The strings printed for one section, in print order. *)
Definition section_prints (s : section) : list string :=
  [ newline ++ "[" ++ sec_name s ++ "]";
    "x=" ++ Py.str (sec_x s);
    "y=" ++ Py.str (sec_y s);
    "width=" ++ Py.str (sec_width s);
    "height=" ++ Py.str (sec_height s);
    "keycode=" ++ Py.str (sec_keycode s) ]
  ++ (if sec_toggle s then ["toggle=true"] else [])
  ++ [ "label=" ++ sec_label s ].

(** The running offset after a run of descriptors. *)
Definition advance (current_x_units : Q) (row : list descriptor) : Q :=
  fold_left (fun c item => (c + width_units item)%Q) row current_x_units.

(** Sections of a row suffix met at offset [current_x_units]. *)
Fixpoint row_sections (y : Z) (current_x_units : Q) (row : list descriptor)
  : list section :=
  match row with
  | [] => []
  | item :: rest =>
      let next := (current_x_units + width_units item)%Q in
      if is_gap item then row_sections y next rest
      else section_of y current_x_units item :: row_sections y next rest
  end.

(** Sections of the rows of a table whose first row has index [r_idx]. *)
Fixpoint layout_sections_from (r_idx : Z) (layout : list (list descriptor))
  : list section :=
  match layout with
  | [] => []
  | row :: rest =>
      row_sections (y_pos r_idx) 0 row ++ layout_sections_from (r_idx + 1) rest
  end.

Definition layout_sections (layout : list (list descriptor)) : list section :=
  layout_sections_from 0 layout.

(** The real keys of a table in table order: rows top to bottom,
    descriptors left to right. *)
Definition key_descriptors (layout : list (list descriptor))
  : list descriptor :=
  flat_map (filter (fun item => negb (is_gap item))) layout.

(** The descriptor at row [r], column [c]. *)
Definition descriptor_at (layout : list (list descriptor)) (r c : nat)
  : option descriptor :=
  match nth_error layout r with
  | Some row => nth_error row c
  | Datatypes.None => Datatypes.None
  end.

(** The header, as the strings it consists of. *)
Definition header_prints : list string :=
  [ "[General]"; "width=646"; "height=208"; "background_color=#0A0A0A" ].

(** ** The loops print the sections *)

Lemma print_app (s : string) (out : list string) :
  print s out = (out ++ [s])%list.
Proof. reflexivity. Qed.

Lemma item_step_gap (y : Z) (c : Q) (out : list string) (item : descriptor) :
  is_gap item = true ->
  item_step y (c, out) item = ((c + width_units item)%Q, out).
Proof.
  unfold is_gap, item_step. intros ->. reflexivity.
Qed.

Lemma item_step_key (y : Z) (c : Q) (out : list string) (item : descriptor) :
  is_gap item = false ->
  item_step y (c, out) item =
  ((c + width_units item)%Q,
   (out ++ section_prints (section_of y c item))%list).
Proof.
  unfold is_gap, item_step. intros ->.
  unfold section_prints, section_of; cbn [sec_name sec_x sec_y sec_width
    sec_height sec_keycode sec_toggle sec_label].
  f_equal. rewrite !print_app.
  destruct (is_toggle item); rewrite ?print_app, <- ?app_assoc; reflexivity.
Qed.

Lemma inner_loop_sections (y : Z) (row : list descriptor) :
  forall (c : Q) (out : list string),
    fold_left (item_step y) row (c, out) =
    (advance c row,
     (out ++ flat_map section_prints (row_sections y c row))%list).
Proof.
  induction row as [|item rest IH]; intros c out; cbn [fold_left].
  - cbn. now rewrite app_nil_r.
  - cbn [row_sections advance fold_left].
    destruct (is_gap item) eqn:Hgap.
    + rewrite (item_step_gap _ _ _ _ Hgap). apply IH.
    + rewrite (item_step_key _ _ _ _ Hgap), IH.
      cbn [flat_map]. now rewrite <- app_assoc.
Qed.

Lemma row_step_sections (out : list string) (r_idx : Z) (row : list descriptor) :
  row_step out (r_idx, row) =
  (out ++ flat_map section_prints (row_sections (y_pos r_idx) 0 row))%list.
Proof.
  unfold row_step. now rewrite inner_loop_sections.
Qed.

Lemma outer_loop_sections (layout : list (list descriptor)) :
  forall (r_idx : Z) (out : list string),
    fold_left row_step (Py.enumerate_from r_idx layout) out =
    (out ++ flat_map section_prints (layout_sections_from r_idx layout))%list.
Proof.
  induction layout as [|row rest IH]; intros r_idx out.
  - cbn. now rewrite app_nil_r.
  - cbn [Py.enumerate_from fold_left layout_sections_from].
    rewrite row_step_sections, IH, flat_map_app. now rewrite app_assoc.
Qed.

Lemma print_header_prints : print_header [] = header_prints.
Proof. reflexivity. Qed.

Lemma emit_sections (layout : list (list descriptor)) :
  emit layout =
  (header_prints ++ flat_map section_prints (layout_sections layout))%list.
Proof.
  unfold emit, Py.enumerate, layout_sections.
  now rewrite outer_loop_sections, print_header_prints.
Qed.

(** ** Walking the table by position *)

Fixpoint indexed_from {A : Type} (n : nat) (l : list A) : list (nat * A) :=
  match l with
  | [] => []
  | x :: rest => (n, x) :: indexed_from (S n) rest
  end.

(** Every descriptor of a table with its row index, its row and its column. *)
Definition positions (layout : list (list descriptor))
  : list (nat * list descriptor * nat * descriptor) :=
  flat_map
    (fun ir => map (fun cd => (fst ir, snd ir, fst cd, snd cd))
                   (indexed_from 0 (snd ir)))
    (indexed_from 0 layout).

Lemma indexed_from_nth {A : Type} (l : list A) :
  forall (n i : nat) (x : A),
    nth_error l i = Some x -> In ((n + i)%nat, x) (indexed_from n l).
Proof.
  induction l as [|y rest IH]; intros n i x H.
  - destruct i; discriminate.
  - destruct i as [|i]; cbn in *.
    + injection H as ->. left. f_equal. lia.
    + right. replace (n + S i)%nat with (S n + i)%nat by lia. now apply IH.
Qed.

Lemma positions_complete (layout : list (list descriptor)) r row c d :
  nth_error layout r = Some row ->
  nth_error row c = Some d ->
  In (r, row, c, d) (positions layout).
Proof.
  intros Hr Hc. unfold positions. apply in_flat_map.
  exists (r, row). split.
  - apply (indexed_from_nth layout 0 r row Hr).
  - apply in_map_iff. exists (c, d). split; [reflexivity|].
    apply (indexed_from_nth row 0 c d Hc).
Qed.

Lemma descriptor_at_rows (layout : list (list descriptor)) r c d :
  descriptor_at layout r c = Some d ->
  exists row, nth_error layout r = Some row /\ nth_error row c = Some d.
Proof.
  unfold descriptor_at. destruct (nth_error layout r) as [row|]; [|discriminate].
  intros H. now exists row.
Qed.

(** A property checked on every position of the fixed table holds at each
    descriptor looked up in it. *)
Lemma tkl_positions_ind
  (chk : nat * list descriptor * nat * descriptor -> bool) :
  forallb chk (positions tkl_layout) = true ->
  forall r row c d,
    nth_error tkl_layout r = Some row ->
    nth_error row c = Some d ->
    chk (r, row, c, d) = true.
Proof.
  intros Hall r row c d Hr Hc.
  rewrite forallb_forall in Hall. apply Hall.
  now apply positions_complete.
Qed.

(** ** Section names *)

Definition name_of (d : descriptor) : string :=
  section_name (label d) (keycode d).

Definition distinct_namesb (p q : nat * list descriptor * nat * descriptor)
  : bool :=
  let '(r1, _, c1, d1) := p in
  let '(r2, _, c2, d2) := q in
  is_gap d1 || is_gap d2 || ((r1 =? r2)%nat && (c1 =? c2)%nat)
  || negb (String.eqb (name_of d1) (name_of d2)).

Lemma tkl_names_checked :
  forallb (fun p => forallb (distinct_namesb p) (positions tkl_layout))
          (positions tkl_layout) = true.
Proof. vm_compute. reflexivity. Qed.

(** C1: any two real keys at different places of the fixed table get
    different section names [Key_<SanitizedLabel>_<Keycode>], the keys
    that share a label (Shift, Ctrl, Alt) included. *)
Theorem section_names_pairwise_distinct :
  forall r1 c1 d1 r2 c2 d2,
    descriptor_at tkl_layout r1 c1 = Some d1 ->
    descriptor_at tkl_layout r2 c2 = Some d2 ->
    is_gap d1 = false ->
    is_gap d2 = false ->
    (r1, c1) <> (r2, c2) ->
    section_name (label d1) (keycode d1) <>
    section_name (label d2) (keycode d2).
Proof.
  intros r1 c1 d1 r2 c2 d2 H1 H2 G1 G2 Hpos.
  destruct (descriptor_at_rows _ _ _ _ H1) as (row1 & Hr1 & Hc1).
  destruct (descriptor_at_rows _ _ _ _ H2) as (row2 & Hr2 & Hc2).
  pose proof tkl_names_checked as Hall.
  rewrite forallb_forall in Hall.
  specialize (Hall _ (positions_complete _ _ _ _ _ Hr1 Hc1)).
  rewrite forallb_forall in Hall.
  specialize (Hall _ (positions_complete _ _ _ _ _ Hr2 Hc2)).
  cbn [distinct_namesb] in Hall. rewrite G1, G2 in Hall. cbn [orb] in Hall.
  destruct ((r1 =? r2)%nat && (c1 =? c2)%nat) eqn:Hsame.
  - apply andb_prop in Hsame as [Hr Hc].
    apply Nat.eqb_eq in Hr, Hc. subst. now contradiction Hpos.
  - cbn [orb] in Hall. apply negb_true_iff in Hall.
    now apply String.eqb_neq in Hall.
Qed.

(** The two Shift keys of row 4: same label, names [Key_Shift_50] and
    [Key_Shift_62]. *)
Lemma section_names_pairwise_distinct_witness :
  section_name "Shift" K_LSHIFT <> section_name "Shift" K_RSHIFT.
Proof.
  apply (section_names_pairwise_distinct 4 0 (toggle_key "Shift" K_LSHIFT (9#4))
                                         4 11 (toggle_key "Shift" K_RSHIFT (11#4))).
  - reflexivity.
  - reflexivity.
  - reflexivity.
  - reflexivity.
  - intros H. discriminate H.
Defined.

(** ** Key widths *)

Definition width_okb (p : nat * list descriptor * nat * descriptor) : bool :=
  let '(_, _, _, d) := p in
  is_gap d ||
  ((w_pos (width_units d) =? Qfloor (width_units d * inject_Z UNIT) - GAP)
   && (0 <? w_pos (width_units d))).

Lemma tkl_widths_checked : forallb width_okb (positions tkl_layout) = true.
Proof. vm_compute. reflexivity. Qed.

(** C2: for every real key of the fixed table the printed width, which the
    script computes as [int(width_units * UNIT - GAP)], equals
    [floor(width_units * UNIT) - GAP] with [UNIT = 34] and [GAP = 2], and it
    is strictly positive. *)
Theorem emitted_width_floor_positive :
  forall r c d,
    descriptor_at tkl_layout r c = Some d ->
    is_gap d = false ->
    UNIT = 34 /\ GAP = 2 /\
    w_pos (width_units d) = Py.int (width_units d * inject_Z UNIT - inject_Z GAP)%Q /\
    w_pos (width_units d) = Qfloor (width_units d * inject_Z UNIT) - GAP /\
    0 < w_pos (width_units d).
Proof.
  intros r c d H G.
  destruct (descriptor_at_rows _ _ _ _ H) as (row & Hr & Hc).
  pose proof (tkl_positions_ind width_okb tkl_widths_checked r row c d Hr Hc) as Hchk.
  cbn [width_okb] in Hchk. rewrite G in Hchk. cbn [orb] in Hchk.
  apply andb_prop in Hchk as [Heq Hpos].
  apply Z.eqb_eq in Heq. apply Z.ltb_lt in Hpos.
  repeat split; assumption.
Qed.

(** The Caps key, 1.75 units wide: [int(59.5 - 2) = 57 = floor(59.5) - 2]. *)
Lemma emitted_width_floor_positive_witness :
  w_pos (7#4) = Qfloor ((7#4) * inject_Z UNIT) - GAP /\ 0 < w_pos (7#4).
Proof.
  pose proof (emitted_width_floor_positive 3 0 (key "Caps" K_CAPS (7#4))
                eq_refl eq_refl) as (_ & _ & _ & Hfloor & Hpos).
  split; [exact Hfloor | exact Hpos].
Defined.

(** ** Row widths *)

(** The sum of the unit widths of a row, gaps included. *)
Definition sum_units (row : list descriptor) : Q :=
  fold_right (fun item acc => (width_units item + acc)%Q) 0%Q row.

(** The occupied pixel width of a row: from [START_X] to the right edge of
    the last section the row emitted. *)
Definition occupied_width (sections : list section) : option Z :=
  match rev sections with
  | s :: _ => Some (sec_x s + sec_width s - START_X)
  | [] => Datatypes.None
  end.

(** The row at index [r] tiles its units exactly: units times [UNIT] is the
    occupied width plus the trailing gap. *)
Definition row_tiles (r : nat) (row : list descriptor) : Prop :=
  exists occ,
    occupied_width (row_sections (y_pos (Z.of_nat r)) 0 row) = Some occ /\
    (sum_units row * inject_Z UNIT == inject_Z (occ + GAP))%Q.

(** The row at index [r] tiles its units up to [slack] pixels lost to
    truncation. *)
Definition row_tiles_upto (slack : Z) (r : nat) (row : list descriptor) : Prop :=
  exists occ,
    occupied_width (row_sections (y_pos (Z.of_nat r)) 0 row) = Some occ /\
    (sum_units row * inject_Z UNIT == inject_Z (occ + GAP + slack))%Q.

(** The Caps row (index 3) is 15 units, 510 pixels, wide; Enter starts at
    [int(435.5) = 435] and is [int(74.5) = 74] wide, so the occupied width
    is 507 and with the trailing gap 509. *)
Lemma caps_row_does_not_tile :
  exists row,
    nth_error tkl_layout 3 = Some row /\
    (sum_units row * inject_Z UNIT == 510)%Q /\
    occupied_width (row_sections (y_pos 3) 0 row) = Some 507 /\
    ~ row_tiles 3 row.
Proof.
  eexists. split; [reflexivity|]. split; [vm_compute; reflexivity|].
  split; [vm_compute; reflexivity|].
  intros (occ & Hocc & Heq).
  vm_compute in Hocc. injection Hocc as <-.
  vm_compute in Heq. discriminate Heq.
Qed.

(** C3, as the script has it: every row of the fixed table tiles its units
    exactly, except the Caps row (index 3), where the x position and the
    width of Enter are both truncated from a half pixel and one pixel is
    lost: 15 units are 510 pixels, the occupied width plus the gap 509. *)
Theorem rows_tile_except_caps_row :
  forall r row,
    nth_error tkl_layout r = Some row ->
    row_tiles_upto (if (r =? 3)%nat then 1 else 0) r row.
Proof.
  intros r row H.
  do 6 (destruct r as [|r];
        [ injection H as <-; eexists; split;
          [ vm_compute; reflexivity | vm_compute; reflexivity ] | ]).
  destruct r; discriminate H.
Qed.

(** Row 0 (Esc .. Pause): 18.5 units, 629 pixels, Pause ends at 627 + 2. *)
Lemma rows_tile_except_caps_row_witness :
  exists row, nth_error tkl_layout 0 = Some row /\ row_tiles_upto 0 0 row.
Proof.
  eexists. split; [reflexivity|].
  exact (rows_tile_except_caps_row 0 _ eq_refl).
Defined.

(** ** The first section and the header *)

(** C4: the first descriptor of the first row, [("Esc", 9, 1)], yields the
    section [Key_Esc_9] with x=2, y=2, width=32, height=32, keycode=9,
    label=Esc and no toggle line: it is the first section emitted, its
    seven prints follow the header directly and the next print opens the
    section of F1. *)
Theorem esc_section_emitted :
  descriptor_at tkl_layout 0 0 = Some (mkDescriptor "Esc" 9 1 []) /\
  hd_error (layout_sections tkl_layout) =
    Some {| sec_name := "Key_Esc_9"; sec_x := 2; sec_y := 2;
            sec_width := 32; sec_height := 32; sec_keycode := 9;
            sec_toggle := false; sec_label := "Esc" |} /\
  firstn 8 (skipn 4 main) =
    [ newline ++ "[Key_Esc_9]"; "x=2"; "y=2"; "width=32"; "height=32";
      "keycode=9"; "label=Esc"; newline ++ "[Key_F1_67]" ] /\
  String.prefix
    ("[General]" ++ newline ++ "width=646" ++ newline ++ "height=208"
     ++ newline ++ "background_color=#0A0A0A" ++ newline
     ++ newline ++ "[Key_Esc_9]" ++ newline ++ "x=2" ++ newline
     ++ "y=2" ++ newline ++ "width=32" ++ newline ++ "height=32" ++ newline
     ++ "keycode=9" ++ newline ++ "label=Esc" ++ newline
     ++ newline ++ "[Key_F1_67]" ++ newline)
    output = true.
Proof.
  repeat split; vm_compute; reflexivity.
Qed.

(** C5: whatever the table, the first four prints are the [General]
    header with width=646 (19 units), height=208 (6 units and 4) and
    background_color=#0A0A0A, and everything after them is key sections;
    on standard output the header text is followed by the blank line that
    opens the first key section. *)
Theorem general_header_first :
  (forall layout,
      firstn 4 (emit layout) =
        [ "[General]"; "width=646"; "height=208"; "background_color=#0A0A0A" ] /\
      skipn 4 (emit layout) =
        flat_map section_prints (layout_sections layout)) /\
  19 * UNIT = 646 /\
  6 * UNIT + 4 = 208 /\
  String.prefix
    ("[General]" ++ newline ++ "width=646" ++ newline ++ "height=208"
     ++ newline ++ "background_color=#0A0A0A" ++ newline
     ++ newline ++ "[Key_Esc_9]" ++ newline)
    output = true.
Proof.
  split; [|repeat split; vm_compute; reflexivity].
  intros layout. rewrite emit_sections. split; reflexivity.
Qed.

(** ** Order of sections and of fields *)

Lemma row_sections_keys (y : Z) (row : list descriptor) :
  forall c : Q,
    map (fun s => (sec_label s, sec_keycode s)) (row_sections y c row) =
    map (fun d => (label d, keycode d))
        (filter (fun item => negb (is_gap item)) row).
Proof.
  induction row as [|item rest IH]; intros c; [reflexivity|].
  cbn [row_sections filter].
  destruct (is_gap item); cbn [negb map]; [apply IH|].
  now rewrite IH.
Qed.

Lemma layout_sections_keys (layout : list (list descriptor)) :
  forall r_idx : Z,
    map (fun s => (sec_label s, sec_keycode s))
        (layout_sections_from r_idx layout) =
    map (fun d => (label d, keycode d)) (key_descriptors layout).
Proof.
  induction layout as [|row rest IH]; intros r_idx; [reflexivity|].
  cbn [layout_sections_from key_descriptors flat_map].
  rewrite !map_app, row_sections_keys. f_equal. apply IH.
Qed.

(** C6: for any table, the prints are the header followed, for each real
    key in table order (rows top to bottom, descriptors left to right) and
    for nothing else, by one section whose prints are, in this order, the
    name line, x, y, width, height, keycode, toggle=true when the key is a
    toggle, and label with the descriptor's own label text. *)
Theorem sections_in_table_order :
  forall layout,
    emit layout =
      (header_prints ++
       flat_map
         (fun s =>
            [ (newline ++ "[" ++ sec_name s ++ "]")%string;
              ("x=" ++ Py.str (sec_x s))%string;
              ("y=" ++ Py.str (sec_y s))%string;
              ("width=" ++ Py.str (sec_width s))%string;
              ("height=" ++ Py.str (sec_height s))%string;
              ("keycode=" ++ Py.str (sec_keycode s))%string ]
            ++ (if sec_toggle s then ["toggle=true"] else [])
            ++ [ ("label=" ++ sec_label s)%string ])
         (layout_sections layout))%list /\
    map (fun s => (sec_label s, sec_keycode s)) (layout_sections layout) =
    map (fun d => (label d, keycode d)) (key_descriptors layout).
Proof.
  intros layout. split.
  - apply emit_sections.
  - apply layout_sections_keys.
Qed.

(** ** Toggle keys *)

Lemma is_toggle_fifth_field (d : descriptor) :
  is_toggle d = true <->
  4 < len d /\ exists v, field d 4 = Some v /\ Py.truthy v = true.
Proof.
  unfold is_toggle. split.
  - destruct (4 <? len d) eqn:Hlen; [|discriminate].
    destruct (field d 4) as [v|]; cbn [andb]; [|discriminate].
    destruct (Py.truthy v) eqn:Hv; [|discriminate].
    intros _. split; [now apply Z.ltb_lt|]. now exists v.
  - intros (Hlen & v & Hf & Hv).
    apply Z.ltb_lt in Hlen. now rewrite Hlen, Hf, Hv.
Qed.

Lemma toggle_line_in_section (s : section) :
  In "toggle=true" (section_prints s) <-> sec_toggle s = true.
Proof.
  unfold section_prints, newline.
  destruct (sec_toggle s); cbn; split; intros H.
  - reflexivity.
  - do 6 right. now left.
  - repeat (destruct H as [H|H]; [discriminate H|]). contradiction.
  - discriminate H.
Qed.

Definition toggle_keys : list (string * Z) :=
  [ ("Shift", K_LSHIFT); ("Shift", K_RSHIFT);
    ("Ctrl", K_LCTRL); ("Ctrl", K_RCTRL);
    ("Alt", K_LALT); ("Alt", K_RALT);
    ("Win", K_SUPER); ("Menu", K_MENU) ].

Definition is_toggle_key (lk : string * Z) : bool :=
  existsb (fun t => String.eqb (fst lk) (fst t) && (snd lk =? snd t))
          toggle_keys.

Lemma is_toggle_key_In (lk : string * Z) :
  is_toggle_key lk = true <-> In lk toggle_keys.
Proof.
  unfold is_toggle_key. rewrite existsb_exists. split.
  - intros (t & Hin & Heq). apply andb_prop in Heq as [Hl Hk].
    apply String.eqb_eq in Hl. apply Z.eqb_eq in Hk.
    destruct lk, t; cbn in *; now subst.
  - intros Hin. exists lk. split; [assumption|].
    now rewrite String.eqb_refl, Z.eqb_refl.
Qed.

Lemma tkl_toggles_checked :
  forallb (fun s => Bool.eqb (sec_toggle s)
                             (is_toggle_key (sec_label s, sec_keycode s)))
          (layout_sections tkl_layout) = true.
Proof. vm_compute. reflexivity. Qed.

(** C7: the prints of a real key contain [toggle=true] exactly when the
    tuple has a fifth field and that field is truthy; among the sections of
    the fixed table these are both Shift keys, both Ctrl keys, both Alt
    keys, Win and Menu, each of which is emitted, and no other section has
    the line. *)
Theorem toggle_line_iff_fifth_field :
  (forall y c d,
      is_gap d = false ->
      (In "toggle=true" (snd (item_step y (c, []) d)) <->
       4 < len d /\ exists v, field d 4 = Some v /\ Py.truthy v = true)) /\
  (forall s,
      In s (layout_sections tkl_layout) ->
      (In "toggle=true" (section_prints s) <->
       In (sec_label s, sec_keycode s)
          [ ("Shift", 50); ("Shift", 62); ("Ctrl", 37); ("Ctrl", 105);
            ("Alt", 64); ("Alt", 108); ("Win", 133); ("Menu", 135) ])) /\
  map (fun s => (sec_label s, sec_keycode s))
      (filter sec_toggle (layout_sections tkl_layout)) =
    [ ("Shift", 50); ("Shift", 62); ("Ctrl", 37); ("Win", 133);
      ("Alt", 64); ("Alt", 108); ("Menu", 135); ("Ctrl", 105) ].
Proof.
  split; [|split].
  - intros y c d Hgap. rewrite (item_step_key _ _ _ _ Hgap). cbn [snd app].
    rewrite toggle_line_in_section. cbn [section_of sec_toggle].
    apply is_toggle_fifth_field.
  - intros s Hin. rewrite toggle_line_in_section.
    pose proof tkl_toggles_checked as Hall.
    rewrite forallb_forall in Hall. specialize (Hall s Hin).
    apply Bool.eqb_prop in Hall. rewrite Hall.
    apply (is_toggle_key_In (sec_label s, sec_keycode s)).
  - vm_compute. reflexivity.
Qed.

(** The left Shift key, [("Shift", 50, 2.25, None, True)]: five fields, the
    fifth is [True], and its prints contain the toggle line. *)
Lemma toggle_line_iff_fifth_field_witness :
  In "toggle=true"
     (snd (item_step 138 (0%Q, []) (toggle_key "Shift" K_LSHIFT (9#4)))).
Proof.
  apply (proj1 toggle_line_iff_fifth_field); [reflexivity|].
  split; [reflexivity|].
  exists (Py.Bool true). split; reflexivity.
Defined.

(** ** Gaps *)

(** The row without its descriptor at column [c]. *)
Definition remove_at {A : Type} (c : nat) (row : list A) : list A :=
  (firstn c row ++ skipn (S c) row)%list.

(** How many real keys stand before column [c]: the index, among the
    sections of the row, of the first real key at or after column [c]. *)
Definition keys_before (row : list descriptor) (c : nat) : nat :=
  List.length (filter (fun item => negb (is_gap item)) (firstn c row)).

(** The x positions a row emits, left to right. *)
Definition row_xs (row : list descriptor) : list Z :=
  map sec_x (row_sections 0 0 row).

(** The gap [g] at column [c] moves the next real key of the row right by
    its width in pixels: [x_with] is that key's x in the row, [x_without]
    its x in the row with the gap taken out. *)
Definition gap_shifts_next (row : list descriptor) (c : nat) (g : descriptor)
  : Prop :=
  exists x_with x_without,
    nth_error (row_xs row) (keys_before row c) = Some x_with /\
    nth_error (row_xs (remove_at c row)) (keys_before row c) = Some x_without /\
    (inject_Z (x_with - x_without) == width_units g * inject_Z UNIT)%Q.

Definition gap_shifts_nextb (p : nat * list descriptor * nat * descriptor)
  : bool :=
  let '(_, row, c, g) := p in
  negb (is_gap g) ||
  match nth_error (row_xs row) (keys_before row c),
        nth_error (row_xs (remove_at c row)) (keys_before row c) with
  | Some x_with, Some x_without =>
      Qeq_bool (inject_Z (x_with - x_without)) (width_units g * inject_Z UNIT)
  | _, _ => false
  end.

Lemma tkl_gaps_checked :
  forallb gap_shifts_nextb (positions tkl_layout) = true.
Proof. vm_compute. reflexivity. Qed.

Lemma row_sections_length (y : Z) (c : Q) (row : list descriptor) :
  List.length (row_sections y c row) =
  List.length (filter (fun item => negb (is_gap item)) row).
Proof.
  rewrite <- (length_map (fun s => (sec_label s, sec_keycode s))).
  rewrite row_sections_keys. apply length_map.
Qed.

Lemma remove_gap_keeps_keys (row : list descriptor) :
  forall (c : nat) (g : descriptor),
    nth_error row c = Some g ->
    is_gap g = true ->
    filter (fun item => negb (is_gap item)) (remove_at c row) =
    filter (fun item => negb (is_gap item)) row.
Proof.
  induction row as [|item rest IH]; intros c g Hc Hgap.
  - destruct c; discriminate Hc.
  - destruct c as [|c].
    + injection Hc as ->. cbn. now rewrite Hgap.
    + change (remove_at (S c) (item :: rest)) with (item :: remove_at c rest).
      cbn [filter]. rewrite (IH c g Hc Hgap). reflexivity.
Qed.

(** C8: a GAP descriptor prints nothing and only adds its width to the
    running offset; a row and the same row with one of its gaps taken out
    emit the same number of sections; and for every gap of the fixed table
    the next real key of its row is emitted exactly [width_units * 34]
    pixels further right than in the row without that gap. *)
Theorem gap_only_shifts_next_key :
  (forall y c out g,
      is_gap g = true ->
      item_step y (c, out) g = ((c + width_units g)%Q, out)) /\
  (forall y row c g,
      nth_error row c = Some g ->
      is_gap g = true ->
      List.length (row_sections y 0 (remove_at c row)) =
      List.length (row_sections y 0 row)) /\
  (forall r row c g,
      nth_error tkl_layout r = Some row ->
      nth_error row c = Some g ->
      is_gap g = true ->
      gap_shifts_next row c g).
Proof.
  split; [intros y c out g; apply item_step_gap|]. split.
  - intros y row c g Hc Hgap.
    rewrite !row_sections_length. f_equal.
    now apply (remove_gap_keeps_keys row c g).
  - intros r row c g Hr Hc Hgap.
    pose proof (tkl_positions_ind _ tkl_gaps_checked r row c g Hr Hc) as Hchk.
    cbn [gap_shifts_nextb] in Hchk. rewrite Hgap in Hchk.
    cbn [negb orb] in Hchk. unfold gap_shifts_next.
    destruct (nth_error (row_xs row) (keys_before row c)) as [x_with|];
      [|discriminate].
    destruct (nth_error (row_xs (remove_at c row)) (keys_before row c))
      as [x_without|]; [|discriminate].
    exists x_with, x_without. repeat split.
    now apply Qeq_bool_iff.
Qed.

(** The first gap of row 0, one unit wide, between Esc and F1: F1 is at
    x = 70 with it and at x = 36 without it. *)
Lemma gap_only_shifts_next_key_witness :
  exists row,
    nth_error tkl_layout 0 = Some row /\
    gap_shifts_next row 1 (key "GAP" 0 1).
Proof.
  eexists. split; [reflexivity|].
  exact (proj2 (proj2 gap_only_shifts_next_key) 0%nat _ 1%nat _
               eq_refl eq_refl eq_refl).
Defined.

(** ** The reserved fourth field *)

(** Two tuples of the same shape that agree on every field but [item[3]]. *)
Definition same_but_fourth (d1 d2 : descriptor) : Prop :=
  label d1 = label d2 /\
  keycode d1 = keycode d2 /\
  width_units d1 = width_units d2 /\
  len d1 = len d2 /\
  forall i, (3 < i)%nat -> field d1 i = field d2 i.

(** Two tables of the same shape that differ at most in fourth fields. *)
Definition layouts_same_but_fourth (l1 l2 : list (list descriptor)) : Prop :=
  Forall2 (Forall2 same_but_fourth) l1 l2.

Section FourthField.

Variables d1 d2 : descriptor.
Hypothesis Hsame : same_but_fourth d1 d2.

Lemma same_but_fourth_is_toggle : is_toggle d1 = is_toggle d2.
Proof.
  destruct Hsame as (_ & _ & _ & Hlen & Hfield).
  unfold is_toggle. rewrite Hlen, (Hfield 4%nat) by lia. reflexivity.
Qed.

Lemma same_but_fourth_item_step (y : Z) (st : Q * list string) :
  item_step y st d1 = item_step y st d2.
Proof.
  pose proof same_but_fourth_is_toggle as Htoggle.
  destruct Hsame as (Hlabel & Hkey & Hwidth & _).
  unfold item_step. destruct st as [c out].
  now rewrite Hlabel, Hkey, Hwidth, Htoggle.
Qed.

End FourthField.

Lemma same_but_fourth_inner_loop (y : Z) (row1 row2 : list descriptor) :
  Forall2 same_but_fourth row1 row2 ->
  forall st, fold_left (item_step y) row1 st = fold_left (item_step y) row2 st.
Proof.
  induction 1 as [|d1 d2 rest1 rest2 Hd _ IH]; intros st; [reflexivity|].
  cbn [fold_left]. rewrite (same_but_fourth_item_step d1 d2 Hd). apply IH.
Qed.

Lemma same_but_fourth_outer_loop (l1 l2 : list (list descriptor)) :
  layouts_same_but_fourth l1 l2 ->
  forall r_idx out,
    fold_left row_step (Py.enumerate_from r_idx l1) out =
    fold_left row_step (Py.enumerate_from r_idx l2) out.
Proof.
  induction 1 as [|row1 row2 rest1 rest2 Hrow _ IH]; intros r_idx out;
    [reflexivity|].
  cbn [Py.enumerate_from fold_left]. unfold row_step at 2 4.
  rewrite (same_but_fourth_inner_loop _ row1 row2 Hrow). apply IH.
Qed.

(** C9: the fourth tuple field is never read: two tables that differ only
    in the fourth fields of their descriptors print the same strings and
    so give the same text on standard output. *)
Theorem fourth_field_never_read :
  forall l1 l2,
    layouts_same_but_fourth l1 l2 ->
    emit l1 = emit l2 /\ stdout_text (emit l1) = stdout_text (emit l2).
Proof.
  intros l1 l2 H.
  assert (Hemit : emit l1 = emit l2)
    by (unfold emit, Py.enumerate; now apply same_but_fourth_outer_loop).
  split; [exact Hemit | now rewrite Hemit].
Qed.

(** The left Shift key with [None] and with [7] as its fourth field. *)
Lemma fourth_field_never_read_witness :
  emit [[mkDescriptor "Shift" K_LSHIFT (9#4) [Py.None; Py.Bool true]]] =
  emit [[mkDescriptor "Shift" K_LSHIFT (9#4) [Py.Int 7; Py.Bool true]]].
Proof.
  apply fourth_field_never_read.
  constructor; [|constructor]. constructor; [|constructor].
  repeat split.
  intros i Hi. destruct i as [|[|[|[|i]]]]; try lia; reflexivity.
Defined.

(** ** Sections stay inside the declared rectangle *)

Definition inside_generalb (s : section) : bool :=
  (2 <=? sec_x s) && (2 <=? sec_y s)
  && (sec_x s + sec_width s <=? 646)
  && (sec_y s + sec_height s <=? 208).

Lemma tkl_sections_inside :
  forallb inside_generalb (layout_sections tkl_layout) = true.
Proof. vm_compute. reflexivity. Qed.

(** C10: every section emitted for the fixed table lies inside the
    rectangle of the [General] header, 646 wide and 208 high: x and y are
    at least 2, x + width at most 646 and y + height at most 208. *)
Theorem sections_inside_general_rectangle :
  forall s,
    In s (layout_sections tkl_layout) ->
    2 <= sec_x s /\ 2 <= sec_y s /\
    sec_x s + sec_width s <= 646 /\
    sec_y s + sec_height s <= 208.
Proof.
  intros s Hin.
  pose proof tkl_sections_inside as Hall.
  rewrite forallb_forall in Hall. specialize (Hall s Hin).
  unfold inside_generalb in Hall.
  repeat (apply andb_prop in Hall as [Hall ?]).
  repeat split; now apply Z.leb_le.
Qed.

(** The Pause key, the rightmost of row 0: x = 597, width = 32. *)
Lemma sections_inside_general_rectangle_witness :
  2 <= 597 /\ 2 <= 2 /\ 597 + 32 <= 646 /\ 2 + 32 <= 208.
Proof.
  apply (sections_inside_general_rectangle
           {| sec_name := "Key_Pause_127"; sec_x := 597; sec_y := 2;
              sec_width := 32; sec_height := 32; sec_keycode := 127;
              sec_toggle := false; sec_label := "Pause" |}).
  vm_compute. do 15 right. left. reflexivity.
Defined.

(** * Further properties of the script *)

(** ** Label sanitisation *)

(** The characters the [replace] chain of [safe_label] looks for. *)
Definition specials : list ascii :=
  [ "`"; "\"; "["; "]"; "="; ";"; "'"; ","; "."; "/"; "-" ]%char.

Definition is_special (c : ascii) : bool := existsb (Ascii.eqb c) specials.

(** A string without any of these characters. *)
Definition clean (s : string) : bool :=
  forallb (fun c => negb (is_special c)) (list_ascii_of_string s).

(** The word one character is turned into when the whole chain has run. *)
Definition subst_char (c : ascii) : string :=
  if Ascii.eqb c "`" then "Backtick"
  else if Ascii.eqb c "\" then "Backslash"
  else if Ascii.eqb c "[" then "LBr"
  else if Ascii.eqb c "]" then "RBr"
  else if Ascii.eqb c "=" then "Equal"
  else if Ascii.eqb c ";" then "Colon"
  else if Ascii.eqb c "'" then "Quote"
  else if Ascii.eqb c "," then "Comma"
  else if Ascii.eqb c "." then "Dot"
  else if Ascii.eqb c "/" then "Slash"
  else if Ascii.eqb c "-" then "Dash"
  else String c EmptyString.

(** One pass over the label that substitutes every character at once. *)
Fixpoint subst_all (s : string) : string :=
  match s with
  | EmptyString => EmptyString
  | String c rest => subst_char c ++ subst_all rest
  end.

Lemma string_app_assoc (a b c : string) : (a ++ b) ++ c = a ++ (b ++ c).
Proof. induction a as [|x a IH]; cbn; [reflexivity | now rewrite IH]. Qed.

Lemma replace_app (old : ascii) (new a b : string) :
  Py.replace old new (a ++ b) = Py.replace old new a ++ Py.replace old new b.
Proof.
  induction a as [|x a IH]; cbn; [reflexivity|].
  rewrite IH. destruct (Ascii.eqb x old); cbn; [|reflexivity].
  now rewrite string_app_assoc.
Qed.

Lemma safe_label_app (a b : string) :
  safe_label (a ++ b) = safe_label a ++ safe_label b.
Proof. unfold safe_label. now rewrite !replace_app. Qed.

Lemma safe_label_char (c : ascii) :
  safe_label (String c EmptyString) = subst_char c.
Proof.
  destruct c as [[] [] [] [] [] [] [] []]; vm_compute; reflexivity.
Qed.

Lemma subst_char_clean (c : ascii) : clean (subst_char c) = true.
Proof.
  destruct c as [[] [] [] [] [] [] [] []]; vm_compute; reflexivity.
Qed.

Lemma subst_char_id (c : ascii) :
  is_special c = false -> subst_char c = String c EmptyString.
Proof.
  destruct c as [[] [] [] [] [] [] [] []]; vm_compute;
    first [ reflexivity | intros H; discriminate H ].
Qed.

Lemma chars_app (a b : string) :
  list_ascii_of_string (a ++ b) =
  (list_ascii_of_string a ++ list_ascii_of_string b)%list.
Proof. induction a as [|x a IH]; cbn; [reflexivity | now rewrite IH]. Qed.

Lemma clean_app (a b : string) : clean (a ++ b) = clean a && clean b.
Proof. unfold clean. now rewrite chars_app, forallb_app. Qed.

Lemma safe_label_subst_all (label : string) :
  safe_label label = subst_all label.
Proof.
  induction label as [|c rest IH]; [reflexivity|].
  change (String c rest) with (String c EmptyString ++ rest).
  rewrite safe_label_app, safe_label_char, IH. reflexivity.
Qed.

Lemma subst_all_clean (label : string) : clean (subst_all label) = true.
Proof.
  induction label as [|c rest IH]; [reflexivity|].
  cbn [subst_all]. now rewrite clean_app, subst_char_clean, IH.
Qed.

Lemma subst_all_id (label : string) :
  clean label = true -> subst_all label = label.
Proof.
  induction label as [|c rest IH]; [reflexivity|].
  unfold clean. cbn [list_ascii_of_string forallb subst_all].
  intros H. apply andb_prop in H as [Hc Hrest].
  apply negb_true_iff in Hc.
  rewrite (subst_char_id c Hc), (IH Hrest). reflexivity.
Qed.

(** The chain of eleven [replace] calls, each of which rescans the result
    of the one before, does the same as a single pass that maps each
    character of the label to its word: no replacement word contains a
    character that a later call looks for. *)
Theorem safe_label_single_pass :
  forall label, safe_label label = subst_all label.
Proof. exact safe_label_subst_all. Qed.

(** Whatever the label, its sanitised form contains none of the eleven
    characters. *)
Theorem safe_label_clean :
  forall label, clean (safe_label label) = true.
Proof.
  intros label. rewrite safe_label_subst_all. apply subst_all_clean.
Qed.

(** A label without any of the eleven characters is left as it is. *)
Theorem safe_label_clean_id :
  forall label, clean label = true -> safe_label label = label.
Proof.
  intros label H. rewrite safe_label_subst_all. now apply subst_all_id.
Qed.

Lemma safe_label_clean_id_witness : safe_label "PrtSc" = "PrtSc".
Proof. apply (safe_label_clean_id "PrtSc"). reflexivity. Defined.

(** Sanitising twice is sanitising once. *)
Theorem safe_label_idempotent :
  forall label, safe_label (safe_label label) = safe_label label.
Proof.
  intros label. rewrite (safe_label_subst_all (safe_label label)).
  apply subst_all_id. rewrite safe_label_subst_all. apply subst_all_clean.
Qed.

(** ** What makes section names differ *)

Definition no_underscore (s : string) : bool :=
  forallb (fun c => negb (Ascii.eqb c "_")) (list_ascii_of_string s).

Lemma no_underscore_app (a b : string) :
  no_underscore (a ++ b) = no_underscore a && no_underscore b.
Proof. unfold no_underscore. now rewrite chars_app, forallb_app. Qed.

Lemma uint_digits_no_underscore (d : Decimal.uint) :
  no_underscore (NilEmpty.string_of_uint d) = true.
Proof. induction d; cbn; [reflexivity | assumption ..]. Qed.

Lemma nz_digits_no_underscore (d : Decimal.uint) :
  no_underscore (NilZero.string_of_uint d) = true.
Proof.
  destruct d; [reflexivity|..];
    unfold NilZero.string_of_uint; apply uint_digits_no_underscore.
Qed.

Lemma str_no_underscore (z : Z) : no_underscore (Py.str z) = true.
Proof.
  unfold Py.str.
  destruct (Z.to_int z) as [d|d]; cbn [NilZero.string_of_int].
  - apply nz_digits_no_underscore.
  - change (String "-" (NilZero.string_of_uint d))
      with ("-" ++ NilZero.string_of_uint d).
    rewrite no_underscore_app, nz_digits_no_underscore. reflexivity.
Qed.

Lemma to_int_not_nil (z : Z) :
  Z.to_int z <> Decimal.Pos Decimal.Nil /\ Z.to_int z <> Decimal.Neg Decimal.Nil.
Proof.
  destruct z as [|p|p]; cbn; split; try discriminate;
    intros H; injection H as H; now apply DecimalPos.Unsigned.to_uint_nonnil in H.
Qed.

(** Distinct ints print differently. *)
Lemma str_inj (a b : Z) : Py.str a = Py.str b -> a = b.
Proof.
  unfold Py.str. intros H.
  apply DecimalZ.to_int_inj.
  destruct (to_int_not_nil a) as [Ha1 Ha2].
  destruct (to_int_not_nil b) as [Hb1 Hb2].
  pose proof (NilZero.isi _ Ha1 Ha2) as Ia.
  pose proof (NilZero.isi _ Hb1 Hb2) as Ib.
  rewrite H, Ib in Ia. now injection Ia.
Qed.

(** A string is cut in one way only at its last underscore. *)
Lemma cut_at_last_underscore (a : string) :
  forall b d1 d2,
    no_underscore d1 = true ->
    no_underscore d2 = true ->
    a ++ "_" ++ d1 = b ++ "_" ++ d2 ->
    a = b /\ d1 = d2.
Proof.
  induction a as [|x a IH]; intros b d1 d2 H1 H2 Heq.
  - destruct b as [|y b]; cbn in Heq.
    + injection Heq as ->. now split.
    + injection Heq as <- ->.
      rewrite no_underscore_app in H1. cbn in H1.
      rewrite andb_false_r in H1. discriminate H1.
  - destruct b as [|y b]; cbn in Heq.
    + injection Heq as -> <-.
      rewrite no_underscore_app in H2. cbn in H2.
      rewrite andb_false_r in H2. discriminate H2.
    + injection Heq as <- Heq.
      destruct (IH b d1 d2 H1 H2 Heq) as [-> ->]. now split.
Qed.

Lemma section_name_eq_iff (l1 l2 : string) (k1 k2 : Z) :
  section_name l1 k1 = section_name l2 k2 <->
  safe_label l1 = safe_label l2 /\ k1 = k2.
Proof.
  unfold section_name. split.
  - intros H. cbn in H. injection H as H.
    destruct (cut_at_last_underscore _ _ _ _
                (str_no_underscore k1) (str_no_underscore k2) H) as [Hl Hk].
    split; [exact Hl | now apply str_inj].
  - intros [-> ->]. reflexivity.
Qed.

Lemma row_sections_names (y : Z) (row : list descriptor) :
  forall c : Q,
    map sec_name (row_sections y c row) =
    map name_of (filter (fun item => negb (is_gap item)) row).
Proof.
  induction row as [|item rest IH]; intros c; [reflexivity|].
  cbn [row_sections filter].
  destruct (is_gap item); cbn [negb map]; [apply IH|].
  now rewrite IH.
Qed.

Lemma layout_sections_names (layout : list (list descriptor)) :
  forall r_idx : Z,
    map sec_name (layout_sections_from r_idx layout) =
    map name_of (key_descriptors layout).
Proof.
  induction layout as [|row rest IH]; intros r_idx; [reflexivity|].
  cbn [layout_sections_from key_descriptors flat_map].
  rewrite !map_app, row_sections_names. f_equal. apply IH.
Qed.

Lemma NoDup_map_finer {A B C : Type} (f : A -> B) (g : A -> C) (l : list A) :
  (forall x y, g x = g y -> f x = f y) ->
  NoDup (map f l) -> NoDup (map g l).
Proof.
  intros Hfg. induction l as [|a l IH]; cbn; intros H; [constructor|].
  inversion H as [|? ? Hnotin Hrest]; subst. constructor; [|now apply IH].
  intros Hin. apply in_map_iff in Hin as (b & Hgb & Hb).
  apply Hnotin. apply in_map_iff. exists b. split; [|exact Hb].
  now apply Hfg.
Qed.

Fixpoint nodupb (l : list Z) : bool :=
  match l with
  | [] => true
  | x :: rest => negb (existsb (Z.eqb x) rest) && nodupb rest
  end.

Lemma nodupb_NoDup (l : list Z) : nodupb l = true -> NoDup l.
Proof.
  induction l as [|x rest IH]; cbn; intros H; [constructor|].
  apply andb_prop in H as [Hx Hrest]. constructor; [|now apply IH].
  intros Hin. apply negb_true_iff in Hx.
  assert (existsb (Z.eqb x) rest = true) as Hex
    by (apply existsb_exists; exists x; split; [exact Hin | apply Z.eqb_refl]).
  congruence.
Qed.

(** Two section names are equal exactly when the keycodes are equal and
    the labels sanitise to the same text: the decimal keycode after the last
    underscore can be read back from the name. *)
Theorem section_name_injective :
  forall l1 l2 k1 k2,
    section_name l1 k1 = section_name l2 k2 <->
    safe_label l1 = safe_label l2 /\ k1 = k2.
Proof. exact section_name_eq_iff. Qed.

(** For any table whose real keys have pairwise distinct keycodes, the
    emitted section names are pairwise distinct, whatever the labels. *)
Theorem distinct_keycodes_distinct_names :
  forall layout,
    NoDup (map keycode (key_descriptors layout)) ->
    NoDup (map sec_name (layout_sections layout)).
Proof.
  intros layout H. unfold layout_sections. rewrite layout_sections_names.
  revert H. apply NoDup_map_finer.
  intros d1 d2 Hname. now apply section_name_eq_iff in Hname.
Qed.

Lemma distinct_keycodes_distinct_names_witness :
  NoDup (map sec_name (layout_sections tkl_layout)).
Proof.
  apply (distinct_keycodes_distinct_names tkl_layout).
  apply nodupb_NoDup. vm_compute. reflexivity.
Defined.

(** The label does not guard against a repeated keycode in general: the
    semicolon is sanitised to the word Colon, so the labels [;] and [Colon]
    give the same section name under every keycode. *)
Theorem sanitised_labels_collide :
  ";" <> "Colon" /\
  forall k, section_name ";" k = section_name "Colon" k.
Proof.
  split; [discriminate|]. intros k. reflexivity.
Qed.

(** ** Geometry of a row, for any table *)

















(** ** Where each key of a table is emitted *)







(** ** Tables that fit the declared rectangle *)




(** ** How much is printed *)

Lemma row_sections_toggles (y : Z) (row : list descriptor) :
  forall c : Q,
    map sec_toggle (row_sections y c row) =
    map is_toggle (filter (fun item => negb (is_gap item)) row).
Proof.
  induction row as [|item rest IH]; intros c; [reflexivity|].
  cbn [row_sections filter].
  destruct (is_gap item); cbn [negb map]; [apply IH|].
  now rewrite IH.
Qed.

Lemma layout_sections_toggles (layout : list (list descriptor)) :
  forall r_idx : Z,
    map sec_toggle (layout_sections_from r_idx layout) =
    map is_toggle (key_descriptors layout).
Proof.
  induction layout as [|row rest IH]; intros r_idx; [reflexivity|].
  cbn [layout_sections_from key_descriptors flat_map].
  rewrite !map_app, row_sections_toggles. f_equal. apply IH.
Qed.

Lemma filter_length_map {A : Type} (f : A -> bool) (l : list A) :
  List.length (filter f l) = List.length (filter (fun b => b) (map f l)).
Proof.
  induction l as [|a l IH]; [reflexivity|].
  cbn [filter map]. destruct (f a); cbn [List.length]; now rewrite IH.
Qed.

Lemma section_prints_length (secs : list section) :
  List.length (flat_map section_prints secs) =
  (7 * List.length secs + List.length (filter sec_toggle secs))%nat.
Proof.
  induction secs as [|s secs IH]; [reflexivity|].
  cbn [flat_map filter]. rewrite length_app, IH.
  unfold section_prints. destruct (sec_toggle s); cbn [List.length app]; lia.
Qed.

(** For any table the script prints 4 strings for the header, 7 for every
    real key and one more for every real key that is a toggle; gaps add
    nothing. *)
Theorem number_of_prints :
  forall layout,
    List.length (emit layout) =
    (4 + 7 * List.length (key_descriptors layout)
     + List.length (filter is_toggle (key_descriptors layout)))%nat.
Proof.
  intros layout. rewrite emit_sections, length_app, section_prints_length.
  rewrite (filter_length_map sec_toggle), (filter_length_map is_toggle).
  unfold layout_sections. rewrite layout_sections_toggles.
  rewrite <- (length_map sec_toggle (layout_sections_from 0 layout)).
  rewrite layout_sections_toggles, length_map. reflexivity.
Qed.

(** A table without a real key (no rows, empty rows, rows of gaps only)
    prints the header and nothing else. *)
Theorem gaps_only_print_header_only :
  forall layout,
    (forall row d, In row layout -> In d row -> is_gap d = true) ->
    emit layout =
    [ "[General]"; "width=646"; "height=208"; "background_color=#0A0A0A" ].
Proof.
  intros layout Hgaps.
  assert (Hkeys : key_descriptors layout = []).
  { unfold key_descriptors. induction layout as [|row rest IH]; [reflexivity|].
    cbn [flat_map].
    rewrite IH by (intros row' d Hr Hd; apply (Hgaps row' d); [now right | exact Hd]).
    rewrite app_nil_r.
    assert (Hrow : forall d, In d row -> is_gap d = true)
      by (intros d Hd; apply (Hgaps row d); [now left | exact Hd]).
    clear -Hrow. induction row as [|d row IHrow]; [reflexivity|].
    cbn [filter]. rewrite (Hrow d) by now left. cbn [negb].
    apply IHrow. intros d' Hd'. apply Hrow. now right. }
  rewrite emit_sections.
  assert (Hsecs : layout_sections layout = []).
  { apply length_zero_iff_nil.
    rewrite <- (length_map (fun s => (sec_label s, sec_keycode s))).
    unfold layout_sections. rewrite layout_sections_keys, Hkeys. reflexivity. }
  rewrite Hsecs. reflexivity.
Qed.

Lemma gaps_only_print_header_only_witness :
  emit [ [ key "GAP" 0 1; key "GAP" 0 (1#2) ]; [] ] =
  [ "[General]"; "width=646"; "height=208"; "background_color=#0A0A0A" ].
Proof.
  apply (gaps_only_print_header_only [ [ key "GAP" 0 1; key "GAP" 0 (1#2) ]; [] ]).
  intros row d Hrow Hd. simpl in Hrow.
  destruct Hrow as [<-|[<-|[]]]; simpl in Hd.
  - destruct Hd as [<-|[<-|[]]]; reflexivity.
  - destruct Hd.
Defined.

(** ** Sections never overlap *)







(** ** Rows are printed independently *)

Lemma enumerate_from_app {A : Type} (l1 l2 : list A) :
  forall start : Z,
    Py.enumerate_from start (l1 ++ l2) =
    (Py.enumerate_from start l1
     ++ Py.enumerate_from (start + Z.of_nat (List.length l1)) l2)%list.
Proof.
  induction l1 as [|x l1 IH]; intros start.
  - cbn. now rewrite Z.add_0_r.
  - cbn [app Py.enumerate_from List.length]. rewrite IH.
    replace (start + 1 + Z.of_nat (List.length l1))
      with (start + Z.of_nat (S (List.length l1))) by lia.
    reflexivity.
Qed.

(** Rows added at the bottom of a table leave what is printed for the rows
    above them untouched: the prints of the longer table are the prints of
    the shorter one, followed by the sections of the new rows, which are
    those of the outer loop run on them with the row index continuing. *)
Theorem emit_appended_rows :
  forall l1 l2,
    emit (l1 ++ l2) =
    fold_left row_step
              (Py.enumerate_from (Z.of_nat (List.length l1)) l2)
              (emit l1) /\
    exists more, emit (l1 ++ l2) = (emit l1 ++ more)%list.
Proof.
  intros l1 l2.
  assert (Heq : emit (l1 ++ l2) =
                fold_left row_step
                          (Py.enumerate_from (Z.of_nat (List.length l1)) l2)
                          (emit l1)).
  { unfold emit, Py.enumerate.
    now rewrite enumerate_from_app, fold_left_app, Z.add_0_l. }
  split; [exact Heq|].
  rewrite Heq, outer_loop_sections. eexists. reflexivity.
Qed.
